(** * asphalt-sqlalchemy: the SQLAlchemyComponent lifecycle logic

    A shallow embedding of [src/asphalt/sqlalchemy/component.py].  The module
    is glue around three external collaborators (the SQLAlchemy driver layer,
    the asphalt context host and the session objects), so every call that
    leaves the module is an oracle: a field of a type class whose value may be
    a normal return or a raised exception.  What the module itself decides
    (which calls are made, in which order, with which arguments, and which
    exceptions are caught) is written out as code of the effect monad below
    and recorded in a call log. *)

From stdpp Require Import gmap strings list fin_maps.

Set Warnings "-register-all".
Set Default Proof Using "Type".

(** ** Python values *)

(** The values that travel through [engine_args], [session_args] and
    [poolclass]: scalars, references to classes or other opaque objects by
    name, and string-keyed dictionaries. *)
Inductive pyval :=
| PNone
| PBool (b : bool)
| PInt (n : Z)
| PStr (s : string)
| PRef (name : string)
| PDict (d : gmap string pyval).

(** A keyword dictionary ([Dict[str, Any]]). *)
Abbreviation kwargs := (gmap string pyval).

(** The class object [sqlalchemy.ext.asyncio.AsyncSession]. *)
Definition AsyncSession : pyval := PRef "sqlalchemy.ext.asyncio.AsyncSession".

(** ** Exceptions *)

(** Exception classes.  [ExcClass name b] is any other class; [b] tells
    whether it derives from [sqlalchemy.exc.InvalidRequestError], which is all
    an [except InvalidRequestError] clause looks at. *)
Inductive exc_class :=
| TypeError
| KeyError
| AttributeError
| InvalidRequestError
| ExcClass (name : string) (derives_InvalidRequestError : bool).

Record exception := Exc { exc_cls : exc_class; exc_msg : string }.

(** [isinstance(e, InvalidRequestError)] *)
Definition isinstance_InvalidRequestError (e : exception) : bool :=
  match exc_cls e with
  | InvalidRequestError => true
  | ExcClass _ b => b
  | _ => false
  end.

(** The outcome of a call: a value, or a raised exception. *)
Inductive result (A : Type) :=
| Ok (a : A)
| Raise (e : exception).
Arguments Ok {A} a.
Arguments Raise {A} e.

(** ** The effect monad: a world threaded through calls that may raise *)

Module Eff.
Definition t (W A : Type) : Type := W -> W * result A.

Definition ret {W A} (a : A) : t W A := fun w => (w, Ok a).

Definition raise {W A} (e : exception) : t W A := fun w => (w, Raise e).

Definition bind {W A B} (m : t W A) (k : A -> t W B) : t W B :=
  fun w =>
    match m w with
    | (w1, Ok a) => k a w1
    | (w1, Raise e) => (w1, Raise e)
    end.

(** [try: body finally: fin].  The cleanup runs on every outcome of the
    body; the body's outcome is kept unless the cleanup itself raises, in
    which case the cleanup's exception replaces it. *)
Definition try_finally {W A} (body : t W A) (fin : t W unit) : t W A :=
  fun w =>
    let '(w1, r) := body w in
    match fin w1 with
    | (w2, Ok _) => (w2, r)
    | (w2, Raise e) => (w2, Raise e)
    end.

(** [try: body except <handles>: handler].  Exceptions raised by the
    handler are not caught again. *)
Definition try_except {W A} (body : t W A) (handles : exception -> bool)
    (handler : t W A) : t W A :=
  fun w =>
    match body w with
    | (w1, Ok a) => (w1, Ok a)
    | (w1, Raise e) => if handles e then handler w1 else (w1, Raise e)
    end.
End Eff.

Declare Scope eff_scope.
Delimit Scope eff_scope with eff.
Notation "'let*' x ':=' m 'in' k" :=
  (Eff.bind m (fun x => k))
  (at level 10, x name, m at level 100, k at level 200) : eff_scope.
Notation "m '>>' k" :=
  (Eff.bind m (fun _ => k))
  (at level 90, right associativity) : eff_scope.
Open Scope eff_scope.

(** ** Sessions and their teardown finalizers *)

(** The operations of a session object ([Session] or [AsyncSession]) the
    finalizers call.  [S] is whatever state the session keeps; each operation
    may change it and may raise. *)
Class SessionOps (S : Type) := {
  session_in_transaction : S -> S * result bool;
  session_commit : S -> S * result unit;
  session_rollback : S -> S * result unit;
  session_close : S -> S * result unit;
}.

(** What a finalizer does to its session, in order.  [EvAwait] marks a
    suspension point of the asynchronous finalizer; [EvDelInfo k] is the
    statement [del session.info[k]]. *)
Inductive sess_event :=
| EvAwait
| EvInTransaction
| EvCommit
| EvRollback
| EvClose
| EvDelInfo (k : string).

#[global] Instance sess_event_eq_dec : EqDecision sess_event.
Proof. solve_decision. Defined.

(** A session as the finalizer sees it: the object's own state, its [info]
    dictionary, and the log of what has been done to it. *)
Record sess_world (S : Type) := SessWorld {
  sw_state : S;
  sw_info : kwargs;
  sw_log : list sess_event;
}.
Arguments SessWorld {S} _ _ _.
Arguments sw_state {S} _.
Arguments sw_info {S} _.
Arguments sw_log {S} _.

(** The context a unit of work runs in, by name. *)
Definition Context := string.

(** The suspension points of a log removed: the calls alone. *)
Definition calls (log : list sess_event) : list sess_event :=
  filter (λ ev, ev ≠ EvAwait) log.

Section Sessions.
Context {S : Type} `{!SessionOps S}.

Definition log_event (ev : sess_event) : Eff.t (sess_world S) unit :=
  fun w => (SessWorld (sw_state w) (sw_info w) (sw_log w ++ [ev]), Ok tt).

(** A method call on the session: logged, then left to the oracle. *)
Definition call {A} (ev : sess_event) (op : S -> S * result A)
    : Eff.t (sess_world S) A :=
  fun w =>
    let '(s', r) := op (sw_state w) in
    (SessWorld s' (sw_info w) (sw_log w ++ [ev]), r).

(** [del session.info[k]]: raises [KeyError] when the key is absent. *)
Definition del_info (k : string) : Eff.t (sess_world S) unit :=
  fun w =>
    let log' := sw_log w ++ [EvDelInfo k] in
    match sw_info w !! k with
    | Some _ => (SessWorld (sw_state w) (delete k (sw_info w)) log', Ok tt)
    | None => (SessWorld (sw_state w) (sw_info w) log', Raise (Exc KeyError k))
    end.

(** [await m]: a suspension point, then [m] run to completion. *)
Definition await {A} (m : Eff.t (sess_world S) A) : Eff.t (sess_world S) A :=
  log_event EvAwait >> m.

(** [create_session.teardown_session] (lines 133-143).  The decorator
    [@executor(self.commit_executor)] moves the body to a worker thread; the
    body is what is modelled. *)
Definition teardown_session (exception : option exception)
    : Eff.t (sess_world S) unit :=
  Eff.try_finally
    (let* in_txn := call EvInTransaction session_in_transaction in
     if in_txn then
       match exception with
       | None => call EvCommit session_commit
       | Some _ => call EvRollback session_rollback
       end
     else Eff.ret tt)
    (call EvClose session_close >>
     del_info "ctx").

(** [create_async_session.teardown_session] (lines 150-159). *)
Definition teardown_session_async (exception : option exception)
    : Eff.t (sess_world S) unit :=
  Eff.try_finally
    (let* in_txn := call EvInTransaction session_in_transaction in
     if in_txn then
       match exception with
       | None => await (call EvCommit session_commit)
       | Some _ => await (call EvRollback session_rollback)
       end
     else Eff.ret tt)
    (await (call EvClose session_close) >>
     del_info "ctx").

(** Either finalizer, chosen by the kind of session it was registered for. *)
Definition finalizer (async : bool) (exception : option exception)
    : Eff.t (sess_world S) unit :=
  if async then teardown_session_async exception
  else teardown_session exception.

(** The session a factory call [sessionmaker(info={"ctx": ctx})] returns,
    before anything has been done to it: [s0] is the fresh session's state,
    [base] whatever [info] the factory itself was configured with. *)
Definition fresh_session (s0 : S) (base : kwargs) (ctx : Context)
    : sess_world S :=
  SessWorld s0 (<["ctx" := PRef ctx]> base) [].

(** [create_session] (lines 132-147) and [create_async_session] (lines
    149-163): the new session, and the finalizer registered on [ctx] with
    [pass_exception=True]. *)
Definition create_session (s0 : S) (base : kwargs) (ctx : Context)
    : sess_world S * (option exception -> Eff.t (sess_world S) unit) :=
  (fresh_session s0 base ctx, teardown_session).
Definition create_async_session (s0 : S) (base : kwargs) (ctx : Context)
    : sess_world S * (option exception -> Eff.t (sess_world S) unit) :=
  (fresh_session s0 base ctx, teardown_session_async).
End Sessions.

(** ** The driver layer *)

(** [sqlalchemy.engine.url.URL], as far as this module looks into it. *)
Record URL := MkURL {
  drivername : string;
  database : option string;
}.

(** Engines and connections.  An [AsyncEngine] is a proxy around a
    synchronous engine and is not an instance of [Engine]; a connection knows
    the engine it was checked out from. *)
Record Engine := MkEngine {
  engine_id : nat;
  engine_dialect : string;
  engine_driver : string;
}.
Record AsyncEngine := MkAsyncEngine { sync_engine : Engine }.
Record Connection := MkConnection { conn_id : nat; conn_engine : Engine }.
Record AsyncConnection :=
  MkAsyncConnection { aconn_id : nat; aconn_engine : AsyncEngine }.

(** [Union[Connection, Engine, AsyncConnection, AsyncEngine]] *)
Inductive bindable :=
| BEngine (e : Engine)
| BAsyncEngine (e : AsyncEngine)
| BConnection (c : Connection)
| BAsyncConnection (c : AsyncConnection).

(** The [.engine] attribute.  An [Engine] is its own engine and a connection
    knows its engine; an [AsyncEngine] proxies the attribute to the
    synchronous engine it wraps, so its [.engine] is that [Engine]. *)
Definition bind_engine (b : bindable) : bindable :=
  match b with
  | BEngine e => BEngine e
  | BAsyncEngine e => BEngine (sync_engine e)
  | BConnection c => BEngine (conn_engine c)
  | BAsyncConnection c => BAsyncEngine (aconn_engine c)
  end.

(** [isinstance(b, AsyncEngine)] and [isinstance(b, Engine)] *)
Definition isinstance_AsyncEngine (b : bindable) : bool :=
  match b with BAsyncEngine _ => true | _ => false end.
Definition isinstance_Engine (b : bindable) : bool :=
  match b with BEngine _ => true | _ => false end.

(** The synchronous engine behind a bind target. *)
Definition bind_sync_engine (b : bindable) : Engine :=
  match b with
  | BEngine e => e
  | BAsyncEngine e => sync_engine e
  | BConnection c => conn_engine c
  | BAsyncConnection c => sync_engine (aconn_engine c)
  end.

(** The [url] argument: [Union[str, URL, Dict[str, Any]]]. *)
Inductive url_arg :=
| UrlStr (s : string)
| UrlObj (u : URL)
| UrlDict (d : kwargs).

(** The functions of SQLAlchemy, asphalt and [asphalt.sqlalchemy.utils] the
    component calls, as oracles. *)
Class DriverLayer := {
  URL_create : kwargs -> result URL;
  make_url : string -> result URL;
  (** [url.get_dialect().name] *)
  get_dialect_name : URL -> result string;
  resolve_reference : string -> result pyval;
  (** [create_async_engine(url, poolclass=..., **kw)], the keywords already
      bound; it raises [InvalidRequestError] for a driver that is not
      asynchronous. *)
  create_async_engine : URL -> pyval -> kwargs -> result AsyncEngine;
  create_engine : URL -> pyval -> kwargs -> result Engine;
  apply_sqlite_hacks : bindable -> result unit;
  (** [sessionmaker(bind=..., **kw)]: the factory keeps its arguments; the
      oracle says whether the constructor raises. *)
  sessionmaker_init : bindable -> kwargs -> result unit;
  Engine_dispose : Engine -> result unit;
  AsyncEngine_dispose : AsyncEngine -> result unit;
}.

(** The session factory: the bind target and the keyword arguments it was
    constructed with, which it passes to every session it makes. *)
Record sessionmaker := MkSessionmaker {
  sm_bind : bindable;
  sm_kw : kwargs;
}.

(** Calls that leave the module during construction, with their arguments. *)
Inductive init_event :=
| EvURLCreate (d : kwargs)
| EvMakeUrl (s : string)
| EvGetDialect (u : URL)
| EvResolveReference (name : string)
| EvCreateAsyncEngine (u : URL) (poolclass : pyval) (kw : kwargs)
| EvCreateEngine (u : URL) (poolclass : pyval) (kw : kwargs)
| EvApplySqliteHacks (engine : bindable)
| EvSessionmaker (bind : bindable) (kw : kwargs).

(** The component after [__init__]. *)
Record SQLAlchemyComponent := MkComponent {
  resource_name : string;
  commit_executor_workers : Z;
  bind : bindable;
  engine : bindable;
  self_sessionmaker : sessionmaker;
}.

(** A double quote, for messages that contain one. *)
Definition dquote : string := String (Ascii.ascii_of_nat 34) EmptyString.

(** ['both "url" and "bind" cannot be None'] *)
Definition msg_url_and_bind_none : string :=
  "both " +:+ dquote +:+ "url" +:+ dquote +:+ " and " +:+ dquote +:+ "bind"
  +:+ dquote +:+ " cannot be None".

(** [d or {}] for an optional dictionary: [None] and the empty dictionary
    are both falsy. *)
Definition or_empty (d : option kwargs) : kwargs :=
  match d with
  | Some m => if bool_decide (size m = 0) then ∅ else m
  | None => ∅
  end.

(** [d.setdefault(k, v)]: the dictionary afterwards, and the value returned. *)
Definition setdefault (k : string) (v : pyval) (d : kwargs) : kwargs * pyval :=
  match d !! k with
  | Some x => (d, x)
  | None => (<[k := v]> d, v)
  end.

(** [f(name=..., **kw)] raises [TypeError] before [f] runs when [kw] repeats
    the explicit keyword [name]. *)
Definition with_keyword {A} (fname name : string) (kw : kwargs)
    (call : result A) : result A :=
  match kw !! name with
  | Some _ =>
      Raise (Exc TypeError
               (fname +:+ "() got multiple values for keyword argument '"
                +:+ name +:+ "'"))
  | None => call
  end.

Section Component.
Context `{!DriverLayer}.

(** An external call during construction: logged with its arguments, its
    outcome the oracle's. *)
Definition extern {A} (ev : init_event) (r : result A)
    : Eff.t (list init_event) A :=
  fun log => (log ++ [ev], r).

(** The outcomes of the three calls that pass keywords by [**]. *)
Definition async_engine_result (u : URL) (pool_class : pyval) (kw : kwargs)
    : result AsyncEngine :=
  with_keyword "create_async_engine" "poolclass" kw
    (create_async_engine u pool_class kw).
Definition sync_engine_result (u : URL) (pool_class : pyval) (kw : kwargs)
    : result Engine :=
  with_keyword "create_engine" "poolclass" kw (create_engine u pool_class kw).
Definition sessionmaker_result (b : bindable) (kw : kwargs)
    : result sessionmaker :=
  with_keyword "sessionmaker" "bind" kw
    (match sessionmaker_init b kw with
     | Ok _ => Ok (MkSessionmaker b kw)
     | Raise e => Raise e
     end).

(** Lines 107-109: the SQLite accommodation.  [connect_args] is the very
    dictionary stored in [engine_args], so the second [setdefault] is seen
    through [engine_args]; a [connect_args] that is not a dictionary has no
    [setdefault]. *)
Definition sqlite_connect_args (engine_args : kwargs)
    : Eff.t (list init_event) kwargs :=
  let '(engine_args, connect_args) :=
    setdefault "connect_args" (PDict ∅) engine_args in
  match connect_args with
  | PDict d =>
      let '(d, _) := setdefault "check_same_thread" (PBool false) d in
      Eff.ret (<["connect_args" := PDict d]> engine_args)
  | _ => Eff.raise (Exc AttributeError "setdefault")
  end.

(** Lines 115-122: asynchronous construction first, the synchronous
    constructor on [InvalidRequestError]. *)
Definition engine_from_url (u : URL) (pool_class : pyval) (engine_args : kwargs)
    : Eff.t (list init_event) bindable :=
  Eff.try_except
    (let* e := extern (EvCreateAsyncEngine u pool_class engine_args)
                 (async_engine_result u pool_class engine_args) in
     Eff.ret (BAsyncEngine e))
    isinstance_InvalidRequestError
    (let* e := extern (EvCreateEngine u pool_class engine_args)
                 (sync_engine_result u pool_class engine_args) in
     Eff.ret (BEngine e)).

(** Lines 97-102: the [url] argument made a [URL]; [None] is the
    configuration error. *)
Definition url_from_arg (url : option url_arg) : Eff.t (list init_event) URL :=
  match url with
  | Some (UrlDict d) => extern (EvURLCreate d) (URL_create d)
  | Some (UrlStr s) => extern (EvMakeUrl s) (make_url s)
  | None => Eff.raise (Exc TypeError msg_url_and_bind_none)
  | Some (UrlObj u) => Eff.ret u
  end.

(** Lines 111-114: a pool class given by name is resolved. *)
Definition resolve_poolclass (poolclass : pyval) : Eff.t (list init_event) pyval :=
  match poolclass with
  | PStr name => extern (EvResolveReference name) (resolve_reference name)
  | _ => Eff.ret poolclass
  end.

(** [SQLAlchemyComponent.__init__] (lines 74-130).  [check_argument_types()]
    is the typing of the arguments here.  [if bind:] tests for [None]:
    engines and connections define no truth value of their own.  The
    caller's dictionaries are updated in place by the source; the model
    follows their contents. *)
Definition __init__ (url : option url_arg) (bind : option bindable)
    (engine_args session_args : option kwargs) (commit_executor_workers : Z)
    (poolclass : pyval) (resource_name : string)
    : Eff.t (list init_event) SQLAlchemyComponent :=
  let engine_args := or_empty engine_args in
  let session_args := or_empty session_args in
  let session_args := <["expire_on_commit" := PBool false]> session_args in
  let session_args := <["future" := PBool true]> session_args in
  let* bound :=
    match bind with
    | Some bind => Eff.ret (bind, bind_engine bind)
    | None =>
        let* url := url_from_arg url in
        let* dialect := extern (EvGetDialect url) (get_dialect_name url) in
        let* engine_args :=
          if String.eqb dialect "sqlite"
          then sqlite_connect_args engine_args
          else Eff.ret engine_args in
        let* pool_class := resolve_poolclass poolclass in
        let* engine := engine_from_url url pool_class engine_args in
        let* dialect := extern (EvGetDialect url) (get_dialect_name url) in
        (if String.eqb dialect "sqlite"
         then extern (EvApplySqliteHacks engine) (apply_sqlite_hacks engine)
         else Eff.ret tt) >>
        Eff.ret (engine, engine)
    end in
  let session_args :=
    if isinstance_AsyncEngine (snd bound)
    then fst (setdefault "class_" AsyncSession session_args)
    else session_args in
  let* sm := extern (EvSessionmaker (fst bound) session_args)
               (sessionmaker_result (fst bound) session_args) in
  Eff.ret (MkComponent resource_name commit_executor_workers
             (fst bound) (snd bound) sm).
End Component.


(** The two engine constructors among the calls of construction. *)
Definition is_engine_construction (ev : init_event) : bool :=
  match ev with
  | EvCreateAsyncEngine _ _ _ | EvCreateEngine _ _ _ => true
  | _ => false
  end.

(** ** Start and shutdown *)

(** What [start] does to its host and to the engine. *)
Inductive start_event :=
| EvAddEngine (e : bindable) (name : string)
| EvAddSessionmaker (sm : sessionmaker) (name : string)
| EvAddResourceFactory (async : bool) (name : string)
| EvThreadPoolExecutor (workers : Z)
| EvAddExecutorShutdown
| EvLogConfigured (name dialect driver : string)
| EvDispose (e : Engine)
| EvAwaitDispose (e : AsyncEngine)
| EvLogShutDown (name : string).

(** What [start] reaches outside the component, as oracles: the outcome of
    each call on the context ([add_resource], [add_resource_factory],
    [add_teardown_callback]) and of the construction of the executor pool,
    and the reading of [bind.dialect.name] and [bind.dialect.driver] for the
    log line.  A resource that is already there makes [add_resource] raise; a
    pool of no workers makes [ThreadPoolExecutor] raise; an [AsyncConnection]
    that was not started has no dialect to read and raises
    [AttributeError]. *)
Class HostLayer := {
  host_outcome : start_event -> result unit;
  bind_dialect : bindable -> result (string * string);
}.

Section Start.
Context `{!DriverLayer} `{!HostLayer}.

(** A call on the host context or the logger: recorded. *)
Definition host (ev : start_event) : Eff.t (list start_event) unit :=
  fun log => (log ++ [ev], Ok tt).

(** A call on the host that may raise: recorded, its outcome the oracle's. *)
Definition host_call (ev : start_event) : Eff.t (list start_event) unit :=
  fun log => (log ++ [ev], host_outcome ev).

(** The arguments of the log line of lines 185-190: no call, but the
    attribute access may raise. *)
Definition read_dialect (b : bindable)
    : Eff.t (list start_event) (string * string) :=
  fun log => (log, bind_dialect b).

(** A disposal: recorded, its outcome the oracle's. *)
Definition dispose (ev : start_event) (r : result unit)
    : Eff.t (list start_event) unit :=
  fun log => (log ++ [ev], r).

(** [start], lines 167-190: up to the [yield].  [EvAddResourceFactory true]
    is the registration of [create_async_session] for [AsyncSession],
    [EvAddResourceFactory false] that of [create_session] for [Session]. *)
Definition start_until_yield (self : SQLAlchemyComponent)
    : Eff.t (list start_event) unit :=
  host_call (EvAddEngine (engine self) (resource_name self)) >>
  host_call (EvAddSessionmaker (self_sessionmaker self) (resource_name self)) >>
  (if isinstance_AsyncEngine (engine self)
   then host_call (EvAddResourceFactory true (resource_name self))
   else
     host_call (EvThreadPoolExecutor (commit_executor_workers self)) >>
     host_call EvAddExecutorShutdown >>
     host_call (EvAddResourceFactory false (resource_name self))) >>
  let* dialect := read_dialect (bind self) in
  host (EvLogConfigured (resource_name self) (fst dialect) (snd dialect)).

(** [start], lines 194-199: after the [yield], run by [@context_teardown]
    when the context ends. *)
Definition start_after_yield (self : SQLAlchemyComponent)
    : Eff.t (list start_event) unit :=
  match bind self with
  | BEngine e => dispose (EvDispose e) (Engine_dispose e)
  | BAsyncEngine e => dispose (EvAwaitDispose e) (AsyncEngine_dispose e)
  | BConnection _ | BAsyncConnection _ => Eff.ret tt
  end >>
  host (EvLogShutDown (resource_name self)).
End Start.

(** A disposal of any engine. *)
Definition is_disposal (ev : start_event) : bool :=
  match ev with
  | EvDispose _ | EvAwaitDispose _ => true
  | _ => false
  end.

(** ** Test doubles *)

(** A session that knows whether a transaction is open and whether it has
    been closed, and whose commit and rollback can be told to fail. *)
Record mock_session := MockSession {
  ms_in_transaction : bool;
  ms_closed : bool;
  ms_broken : bool;
}.

Definition OperationalError : exception :=
  Exc (ExcClass "sqlalchemy.exc.OperationalError" false) "connection lost".

#[global] Instance mock_session_ops : SessionOps mock_session := {
  session_in_transaction s := (s, Ok (ms_in_transaction s));
  session_commit s :=
    if ms_broken s then (s, Raise OperationalError)
    else (MockSession false (ms_closed s) false, Ok tt);
  session_rollback s :=
    if ms_broken s then (s, Raise OperationalError)
    else (MockSession false (ms_closed s) false, Ok tt);
  session_close s := (MockSession false true (ms_broken s), Ok tt);
}.

Definition plus_char : Ascii.ascii := Ascii.ascii_of_nat 43.
Definition colon_char : Ascii.ascii := Ascii.ascii_of_nat 58.

(** The text of [s] before the first [c]. *)
Fixpoint before_char (c : Ascii.ascii) (s : string) : string :=
  match s with
  | EmptyString => EmptyString
  | String a rest => if Ascii.eqb a c then EmptyString else String a (before_char c rest)
  end.

Definition mock_engine (u : URL) : Engine :=
  MkEngine 0 (before_char plus_char (drivername u)) (drivername u).

(** A driver layer with two drivers: [sqlite], synchronous only, and
    [postgresql+asyncpg], asynchronous; anything else is unknown. *)
#[global] Instance mock_driver : DriverLayer := {
  URL_create d :=
    match d !! "drivername" with
    | Some (PStr n) => Ok (MkURL n None)
    | _ => Raise (Exc TypeError "drivername")
    end;
  make_url s := Ok (MkURL (before_char colon_char s) None);
  get_dialect_name u := Ok (before_char plus_char (drivername u));
  resolve_reference name := Ok (PRef name);
  create_async_engine u _ _ :=
    if String.eqb (drivername u) "postgresql+asyncpg"
    then Ok (MkAsyncEngine (mock_engine u))
    else if String.eqb (drivername u) "sqlite"
    then Raise (Exc InvalidRequestError "The asyncio extension requires an async driver")
    else Raise (Exc (ExcClass "sqlalchemy.exc.NoSuchModuleError" false) (drivername u));
  create_engine u _ _ := Ok (mock_engine u);
  apply_sqlite_hacks _ := Ok tt;
  sessionmaker_init _ _ := Ok tt;
  Engine_dispose _ := Ok tt;
  AsyncEngine_dispose _ := Ok tt;
}.

(** A session whose connection is gone: a transaction is open, and
    [commit()], [rollback()] and [close()] all raise. *)
Inductive dead_session := DeadSession.

Definition CommitFailed : exception :=
  Exc (ExcClass "sqlalchemy.exc.OperationalError" false) "commit failed".
Definition CloseFailed : exception :=
  Exc (ExcClass "sqlalchemy.exc.OperationalError" false) "close failed".

#[global] Instance dead_session_ops : SessionOps dead_session := {
  session_in_transaction s := (s, Ok true);
  session_commit s := (s, Raise CommitFailed);
  session_rollback s := (s, Raise CommitFailed);
  session_close s := (s, Raise CloseFailed);
}.

(** A host on which every registration succeeds and a pool needs at least
    one worker; its asynchronous connections have not been started. *)
#[global] Instance mock_host : HostLayer := {
  host_outcome ev :=
    match ev with
    | EvThreadPoolExecutor n =>
        if (n <=? 0)%Z
        then Raise (Exc (ExcClass "ValueError" false)
                      "max_workers must be greater than 0")
        else Ok tt
    | _ => Ok tt
    end;
  bind_dialect b :=
    match b with
    | BAsyncConnection _ =>
        Raise (Exc AttributeError "'NoneType' object has no attribute 'dialect'")
    | _ =>
        Ok (engine_dialect (bind_sync_engine b),
            engine_driver (bind_sync_engine b))
    end;
}.

(** Inputs of the example runs of construction against [mock_driver]. *)
Definition sqlite_url : URL := MkURL "sqlite" None.
Definition sqlite_engine_kw : kwargs :=
  {[ "connect_args" := PDict {[ "check_same_thread" := PBool false ]} ]}.
Definition asyncpg_engine : AsyncEngine :=
  MkAsyncEngine (MkEngine 0 "postgresql" "postgresql+asyncpg").
Definition callers_engine : Engine := MkEngine 7 "postgresql" "psycopg2".
Definition callers_connection : Connection := MkConnection 1 callers_engine.


(** * Properties *)

(** ** The finalizers *)

(** Every occurrence of [a] in [l] comes before every occurrence of [b]. *)
Definition all_before {A} (a b : A) (l : list A) : Prop :=
  ∀ i j, l !! i = Some a → l !! j = Some b → i < j.

Ltac unfold_finalizer :=
  unfold finalizer, teardown_session, teardown_session_async, await, log_event,
    call, del_info, Eff.try_finally, Eff.bind, Eff.ret; simpl.

(** Case analysis on what the session's operations answer: each answer is
    named once and used wherever the same call shows up again. *)
Ltac ask_op op :=
  match goal with
  | |- context [op ?s] =>
      let E := fresh "E" in
      destruct (op s) as [? [[]|?]] eqn:E; simpl;
      repeat (rewrite E; simpl)
  end.
Ltac ask_session :=
  repeat first
    [ ask_op (@session_in_transaction _ _)
    | ask_op (@session_commit _ _)
    | ask_op (@session_rollback _ _)
    | ask_op (@session_close _ _) ].

(** Positions in a log that is known event by event. *)
Ltac walk_log :=
  repeat match goal with
    | H : (_ :: _) !! ?i = Some _ |- _ =>
        destruct i; simpl in H; [try discriminate H|]
    | H : [] !! _ = Some _ |- _ => discriminate H
    end.

(** An event that is or is not in a log known event by event. *)
Ltac log_absurd H :=
  repeat (apply elem_of_cons in H as [H|H]; [discriminate H|]);
  by apply elem_of_nil in H.
Ltac log_in :=
  repeat first [apply list_elem_of_here | apply list_elem_of_further].
Ltac log_not_in :=
  rewrite ?not_elem_of_cons; repeat split;
  first [discriminate | apply not_elem_of_nil].

Section FinalizerProperties.
Context {S : Type} `{!SessionOps S}.

(** The asynchronous finalizer makes the calls of the synchronous one, in
    the same order, with the same effect on the session and the same
    outcome: the two differ in their suspension points alone. *)
Lemma teardown_session_async_calls (exc : option exception) (s : S) (info : kwargs) :
  let '(w, r) := teardown_session exc (SessWorld s info []) in
  let '(w', r') := teardown_session_async exc (SessWorld s info []) in
  calls (sw_log w') = sw_log w ∧ sw_state w' = sw_state w
  ∧ sw_info w' = sw_info w ∧ r' = r.
Proof.
  unfold_finalizer. destruct exc; ask_session;
    destruct (info !! "ctx"); simpl; auto.
Qed.

(** C1, as amended.  In both finalizers, whatever the session answers: the
    calls are [in_transaction()], then [commit()] if a transaction is open
    and no failure was passed in or [rollback()] if one was, then [close()].
    When [close()] returns, [del info["ctx"]] follows, the entry is gone
    afterwards, and the finalizer's outcome is the outcome of the commit or
    rollback step (the [KeyError] of the removal for a session that had lost
    its entry): an exception raised by the commit or rollback leaves the
    finalizer after the session was closed and detached.  When [close()]
    raises, the removal is not reached, [info] is as it was, and it is the
    exception of [close()] that leaves the finalizer, in place of whatever
    the commit or rollback raised. *)
Theorem finalizer_commit_or_rollback_then_cleanup
    (async : bool) (exc : option exception) (s : S) (info : kwargs) :
  let '(s1, in_txn) := session_in_transaction s in
  let '(s2, r_txn) :=
    match in_txn with
    | Ok true =>
        match exc with
        | None => session_commit s1
        | Some _ => session_rollback s1
        end
    | Ok false => (s1, Ok tt)
    | Raise e => (s1, Raise e)
    end in
  let '(s3, r_close) := session_close s2 in
  let '(w, r) := finalizer async exc (SessWorld s info []) in
  calls (sw_log w) =
    EvInTransaction
    :: match in_txn with
       | Ok true => [match exc with None => EvCommit | Some _ => EvRollback end]
       | _ => []
       end
    ++ EvClose
       :: match r_close with
          | Ok _ => [EvDelInfo "ctx"]
          | Raise _ => []
          end
  ∧ sw_state w = s3
  ∧ match r_close with
    | Ok _ =>
        sw_info w = delete "ctx" info
        ∧ sw_info w !! "ctx" = None
        ∧ r = match info !! "ctx" with
              | Some _ => r_txn
              | None => Raise (Exc KeyError "ctx")
              end
    | Raise e => sw_info w = info ∧ r = Raise e
    end.
Proof.
  unfold_finalizer.
  destruct async, exc; ask_session; destruct (info !! "ctx") eqn:Hc; simpl;
    rewrite ?lookup_delete_eq, ?(delete_id _ _ Hc); auto 10.
Qed.

(** C6, as amended.  In every run of either finalizer, whatever the session
    answers: [close()] is called; a [commit()] or [rollback()], if there is
    one, comes before it; the removal of the ["ctx"] entry is performed
    exactly when [close()] returns, comes after it, and leaves [info]
    without the entry, also when the commit or rollback raised; when
    [close()] raises, nothing is removed. *)
Theorem finalizer_call_order
    (async : bool) (exc : option exception) (s : S) (info : kwargs) :
  let '(s1, in_txn) := session_in_transaction s in
  let '(s2, r_txn) :=
    match in_txn with
    | Ok true =>
        match exc with
        | None => session_commit s1
        | Some _ => session_rollback s1
        end
    | Ok false => (s1, Ok tt)
    | Raise e => (s1, Raise e)
    end in
  let '(s3, r_close) := session_close s2 in
  let '(w, r) := finalizer async exc (SessWorld s info []) in
  EvClose ∈ sw_log w
  ∧ all_before EvCommit EvClose (sw_log w)
  ∧ all_before EvRollback EvClose (sw_log w)
  ∧ (∀ k, all_before EvClose (EvDelInfo k) (sw_log w))
  ∧ (EvDelInfo "ctx" ∈ sw_log w ↔ r_close = Ok tt)
  ∧ (r_close = Ok tt →
       sw_info w = delete "ctx" info ∧ sw_info w !! "ctx" = None)
  ∧ (∀ e, r_close = Raise e →
       sw_info w = info ∧ ∀ k, EvDelInfo k ∉ sw_log w).
Proof.
  unfold_finalizer.
  destruct async, exc; ask_session; destruct (info !! "ctx") eqn:Hc; simpl;
    rewrite ?lookup_delete_eq, ?(delete_id _ _ Hc);
    (split; [log_in|]);
    (split; [unfold all_before; intros; walk_log; lia|]);
    (split; [unfold all_before; intros; walk_log; lia|]);
    (split; [unfold all_before; intros; walk_log; lia|]);
    (split;
     [split; [intros Hin; first [done | log_absurd Hin]
             |intros Hr; first [discriminate Hr | log_in]]|]);
    (split; [intros Hr; first [discriminate Hr | done]|]);
    intros e' He; first [discriminate He | split; [done|intros k; log_not_in]].
Qed.

End FinalizerProperties.

(** ** Construction *)

(** How a sequence of two steps can have come to its outcome: the first step
    raised, or it returned and the second step ran from there. *)
Lemma bind_inv {W A B} (m : Eff.t W A) (k : A → Eff.t W B) (w w' : W) (r : result B) :
  Eff.bind m k w = (w', r) →
  (∃ e, m w = (w', Raise e) ∧ r = Raise e)
  ∨ (∃ a w1, m w = (w1, Ok a) ∧ k a w1 = (w', r)).
Proof.
  unfold Eff.bind. destruct (m w) as [w1 [a|e]]; intros H.
  - right. eauto.
  - left. exists e. by simplify_eq.
Qed.

Lemma setdefault_lookup (k : string) (v : pyval) (d : kwargs) (k' : string) :
  fst (setdefault k v d) !! k' =
    if decide (k = k') then Some (default v (d !! k)) else d !! k'.
Proof.
  unfold setdefault. destruct (d !! k) eqn:E; simpl.
  - case_decide; by subst.
  - rewrite lookup_insert. by case_decide.
Qed.

Lemma or_empty_default (d : option kwargs) : or_empty d = default ∅ d.
Proof.
  destruct d as [m|]; simpl; [|done].
  case_bool_decide as E; [|done]. symmetry. by apply map_size_empty_iff.
Qed.

Section ConstructionSteps.
Context `{!DriverLayer}.

(** The run of lines 115-122, outcome by outcome. *)
Lemma engine_from_url_run (u : URL) (pool_class : pyval) (kw : kwargs)
    (log : list init_event) :
  engine_from_url u pool_class kw log =
    match async_engine_result u pool_class kw with
    | Ok e => (log ++ [EvCreateAsyncEngine u pool_class kw], Ok (BAsyncEngine e))
    | Raise err =>
        if isinstance_InvalidRequestError err
        then (log ++ [EvCreateAsyncEngine u pool_class kw;
                      EvCreateEngine u pool_class kw],
              match sync_engine_result u pool_class kw with
              | Ok e => Ok (BEngine e)
              | Raise err' => Raise err'
              end)
        else (log ++ [EvCreateAsyncEngine u pool_class kw], Raise err)
    end.
Proof.
  unfold engine_from_url, Eff.try_except, Eff.bind, extern, Eff.ret.
  destruct (async_engine_result u pool_class kw) as [e|err]; [done|].
  destruct (isinstance_InvalidRequestError err); [|done].
  rewrite <- app_assoc.
  by destruct (sync_engine_result u pool_class kw).
Qed.

(** Lines 107-109 make no call, and fail only on a [connect_args] that is
    not a dictionary. *)
Lemma sqlite_connect_args_run (engine_args : kwargs) (log : list init_event) :
  sqlite_connect_args engine_args log =
    (log,
     match engine_args !! "connect_args" with
     | None =>
         Ok (<["connect_args" := PDict {["check_same_thread" := PBool false]}]>
               engine_args)
     | Some (PDict d) =>
         Ok (<["connect_args" :=
                 PDict (fst (setdefault "check_same_thread" (PBool false) d))]>
               engine_args)
     | Some _ => Raise (Exc AttributeError "setdefault")
     end).
Proof.
  unfold sqlite_connect_args, setdefault at 1.
  destruct (engine_args !! "connect_args") as [[]|] eqn:E; try done.
  - by destruct (setdefault _ _ d).
  - unfold setdefault. rewrite lookup_empty. simpl.
    by rewrite insert_insert_eq, insert_empty.
Qed.

(** What lines 107-109 leave in [engine_args] when they return: a
    [connect_args] dictionary with [check_same_thread] set to the caller's
    value, or to [False] when the caller gave none; everything else as the
    caller gave it. *)
Lemma sqlite_connect_args_ok (engine_args kw : kwargs) (log log' : list init_event) :
  sqlite_connect_args engine_args log = (log', Ok kw) →
  log' = log
  ∧ ∃ d, kw !! "connect_args" = Some (PDict d)
      ∧ d !! "check_same_thread" =
          Some (default (PBool false)
                  (match engine_args !! "connect_args" with
                   | Some (PDict d0) => d0
                   | _ => ∅
                   end !! "check_same_thread"))
      ∧ (∀ k, k ≠ "check_same_thread" →
           d !! k = match engine_args !! "connect_args" with
                    | Some (PDict d0) => d0
                    | _ => ∅
                    end !! k)
      ∧ (∀ k, k ≠ "connect_args" → kw !! k = engine_args !! k).
Proof.
  rewrite sqlite_connect_args_run. intros H0. simplify_eq. split; [done|].
  destruct (engine_args !! "connect_args") as [[]|] eqn:E; simplify_eq.
  - eexists. split; [apply lookup_insert_eq|].
    split; [|split].
    + rewrite setdefault_lookup. by case_decide.
    + intros k Hk. rewrite setdefault_lookup. by case_decide.
    + intros k Hk. by rewrite lookup_insert_ne.
  - eexists. split; [apply lookup_insert_eq|].
    split; [|split].
    + by rewrite lookup_singleton_eq, lookup_empty.
    + intros k Hk. by rewrite lookup_singleton_ne, lookup_empty.
    + intros k Hk. by rewrite lookup_insert_ne.
Qed.

Lemma sqlite_connect_args_raise (engine_args : kwargs) (e : exception)
    (log log' : list init_event) :
  sqlite_connect_args engine_args log = (log', Raise e) → log' = log.
Proof. rewrite sqlite_connect_args_run. intros H0. by simplify_eq. Qed.

Lemma url_from_arg_inv (url : option url_arg) (log log' : list init_event)
    (r : result URL) :
  url_from_arg url log = (log', r) →
  ∃ evs, log' = log ++ evs
    ∧ Forall (λ ev, is_engine_construction ev = false
                    ∧ ∀ b kw, ev ≠ EvSessionmaker b kw) evs.
Proof.
  unfold url_from_arg, extern, Eff.ret, Eff.raise.
  destruct url as [[]|]; intros; simplify_eq;
    (by exists []; rewrite app_nil_r) || (eexists [_]; split; [done|]);
    repeat constructor; done.
Qed.

Lemma resolve_poolclass_inv (poolclass : pyval) (log log' : list init_event)
    (r : result pyval) :
  resolve_poolclass poolclass log = (log', r) →
  (log' = log ∧ r = Ok poolclass)
  ∨ (∃ name, log' = log ++ [EvResolveReference name]).
Proof.
  unfold resolve_poolclass, extern, Eff.ret.
  destruct poolclass; intros; simplify_eq; eauto.
Qed.
End ConstructionSteps.

(** Taking a finished run of construction apart, step by step. *)
Ltac eff_inv :=
  repeat match goal with
    | H : Eff.bind _ _ _ = (_, _) |- _ =>
        apply bind_inv in H as [(? & H & ?) | (? & ? & ? & H)]; simplify_eq
    | H : Eff.ret _ _ = (_, _) |- _ => unfold Eff.ret in H; simplify_eq
    | H : Eff.raise _ _ = (_, _) |- _ => unfold Eff.raise in H; simplify_eq
    | H : extern _ _ _ = (_, _) |- _ => unfold extern in H; simplify_eq
    | H : sqlite_connect_args _ _ = (_, Ok _) |- _ =>
        apply sqlite_connect_args_ok in H as [-> ?]
    | H : sqlite_connect_args _ _ = (_, Raise _) |- _ =>
        apply sqlite_connect_args_raise in H as ->
    | H : engine_from_url _ _ _ _ = (_, _) |- _ =>
        rewrite engine_from_url_run in H
    | H : url_from_arg _ _ = (_, _) |- _ =>
        apply url_from_arg_inv in H as (? & -> & ?)
    | H : resolve_poolclass _ _ = (_, _) |- _ =>
        apply resolve_poolclass_inv in H as [[-> ?]|[? ->]]; simplify_eq
    | H1 : ?t = Ok _, H2 : ?t = Ok _ |- _ => rewrite H1 in H2; simplify_eq
    | H1 : ?t = Ok _, H2 : ?t = Raise _ |- _ => rewrite H1 in H2; discriminate H2
    | E : ?b = _, H : context [if ?b then _ else _] |- _ => rewrite E in H
    | H : (if ?b then _ else _) _ = (_, _) |- _ => destruct b eqn:?
    | H : (match ?x with _ => _ end) _ = (_, _) |- _ => destruct x eqn:?
    | H : (if ?b then _ else _) = (_, _) |- _ => destruct b eqn:?
    | H : (match ?x with _ => _ end) = (_, _) |- _ => destruct x eqn:?
    | H : (match ?x with _ => _ end) = Ok _ |- _ => destruct x eqn:?; simplify_eq
    | H : (match ?x with _ => _ end) = Raise _ |- _ => destruct x eqn:?; simplify_eq
    | H : (_, _) = (_, _) |- _ => simplify_eq
    end.

(** Where in a log, known step by step, an event can be. *)
Ltac log_cases H :=
  repeat match type of H with
    | _ ∈ _ ++ _ => apply elem_of_app in H as [H|H]
    | _ ∈ _ :: _ => apply elem_of_cons in H as [H|H]
    | _ ∈ [] => by apply elem_of_nil in H
    end;
  try discriminate H;
  try match goal with
    | F : Forall _ ?l |- _ =>
        match type of H with
        | _ ∈ l =>
            rewrite Forall_forall in F; apply F in H as [? Hns];
            first [discriminate | by edestruct Hns]
        end
    end;
  simplify_eq.

Section ConstructionProperties.
Context `{!DriverLayer}.

(** The keyword arguments of the session factory, whatever the caller
    supplied and whether or not the engine is asynchronous. *)
Lemma session_kwargs_lookup (session_args : kwargs) (async : bool) :
  let kw :=
    if async
    then fst (setdefault "class_" AsyncSession
                (<["future" := PBool true]>
                   (<["expire_on_commit" := PBool false]> session_args)))
    else <["future" := PBool true]>
           (<["expire_on_commit" := PBool false]> session_args) in
  kw !! "expire_on_commit" = Some (PBool false)
  ∧ kw !! "future" = Some (PBool true)
  ∧ kw !! "class_" =
      if async then Some (default AsyncSession (session_args !! "class_"))
      else session_args !! "class_".
Proof.
  destruct async; simpl; rewrite ?setdefault_lookup; simpl;
    repeat case_decide; try discriminate;
    rewrite ?lookup_insert_eq, ?(lookup_insert_ne _ "future" "expire_on_commit"),
      ?(lookup_insert_ne _ "future" "class_"),
      ?(lookup_insert_ne _ "expire_on_commit" "class_"), ?lookup_insert_eq by done;
    done.
Qed.

Lemma sessionmaker_result_ok (b : bindable) (kw : kwargs) (sm : sessionmaker) :
  sessionmaker_result b kw = Ok sm → sm = MkSessionmaker b kw.
Proof.
  unfold sessionmaker_result, with_keyword.
  destruct (kw !! "bind"); [done|].
  destruct (sessionmaker_init b kw); congruence.
Qed.

(** C4.  With neither [url] nor [bind], construction raises the [TypeError]
    and has made no call by then: no URL was parsed, no engine and no
    session factory constructed. *)
Theorem init_without_url_and_bind
    (engine_args session_args : option kwargs) (workers : Z)
    (poolclass : pyval) (name : string) :
  __init__ None None engine_args session_args workers poolclass name [] =
    ([], Raise (Exc TypeError msg_url_and_bind_none)).
Proof. reflexivity. Qed.

(** C3.  Whatever [session_args] the caller supplies, the session factory
    is constructed with [expire_on_commit=False] and [future=True]: in the
    call of [sessionmaker] and in the factory the component ends up with. *)
Theorem session_args_forced
    (url : option url_arg) (bind : option bindable)
    (engine_args session_args : option kwargs) (workers : Z)
    (poolclass : pyval) (name : string) :
  let '(log, r) :=
    __init__ url bind engine_args session_args workers poolclass name [] in
  (∀ b kw, EvSessionmaker b kw ∈ log →
     kw !! "expire_on_commit" = Some (PBool false)
     ∧ kw !! "future" = Some (PBool true))
  ∧ (∀ self, r = Ok self →
       sm_kw (self_sessionmaker self) !! "expire_on_commit" = Some (PBool false)
       ∧ sm_kw (self_sessionmaker self) !! "future" = Some (PBool true)).
Proof.
  destruct (__init__ _ _ _ _ _ _ _ _) as [log r] eqn:Hrun.
  unfold __init__ in Hrun. cbv zeta in Hrun.
  eff_inv; simpl in *;
    (split; [intros b' kw' Hin; log_cases Hin | intros self Hself; simplify_eq]);
    try match goal with
      | Hsm : sessionmaker_result _ _ = Ok _ |- _ =>
          apply sessionmaker_result_ok in Hsm as ->; simpl
      end;
    pose proof (session_kwargs_lookup (or_empty session_args) true) as Ht;
    pose proof (session_kwargs_lookup (or_empty session_args) false) as Hf;
    simpl in Ht, Hf;
    try match goal with
      | |- context [isinstance_AsyncEngine ?b] =>
          destruct (isinstance_AsyncEngine b)
      end;
    tauto.
Qed.
End ConstructionProperties.

Section SessionClassProperties.
Context `{!DriverLayer}.

End SessionClassProperties.

Section SqliteProperties.
Context `{!DriverLayer}.

End SqliteProperties.

Lemma filter_no_engine_construction (l : list init_event) :
  Forall (λ ev, is_engine_construction ev = false
                ∧ ∀ b kw, ev ≠ EvSessionmaker b kw) l →
  filter (λ ev, is_engine_construction ev = true) l = [].
Proof.
  induction 1 as [|ev l [Hev _] _ IH]; [done|].
  rewrite filter_cons, IH. by rewrite decide_False by congruence.
Qed.

(** An event found in a log that is known step by step. *)
Ltac log_has :=
  solve [repeat first [rewrite elem_of_app | rewrite elem_of_cons]; auto 12].

Section EngineResolutionProperties.
Context `{!DriverLayer}.


(** C2.  Lines 115-122 call the asynchronous constructor first.  If it
    returns, its engine is the result.  If it raises an
    [InvalidRequestError], the synchronous constructor is called with the
    same arguments and its outcome, engine or exception, is the result.  If
    it raises anything else, that exception is the result and the
    synchronous constructor is not called.  In [__init__], the engine
    constructors are called in one such run at most, and an exception that
    leaves the run leaves [__init__]. *)
Theorem engine_resolution_async_first
    (url : option url_arg) (engine_args session_args : option kwargs)
    (workers : Z) (poolclass : pyval) (name : string) :
  (∀ u pool_class kw log,
     engine_from_url u pool_class kw log =
       match async_engine_result u pool_class kw with
       | Ok e =>
           (log ++ [EvCreateAsyncEngine u pool_class kw], Ok (BAsyncEngine e))
       | Raise err =>
           if isinstance_InvalidRequestError err
           then (log ++ [EvCreateAsyncEngine u pool_class kw;
                         EvCreateEngine u pool_class kw],
                 match sync_engine_result u pool_class kw with
                 | Ok e => Ok (BEngine e)
                 | Raise err' => Raise err'
                 end)
           else (log ++ [EvCreateAsyncEngine u pool_class kw], Raise err)
       end)
  ∧ let '(log, r) :=
      __init__ url None engine_args session_args workers poolclass name [] in
    ∀ u pool_class kw,
      (EvCreateEngine u pool_class kw ∈ log →
         EvCreateAsyncEngine u pool_class kw ∈ log)
      ∧ (EvCreateAsyncEngine u pool_class kw ∈ log →
           filter (λ ev, is_engine_construction ev = true) log =
             fst (engine_from_url u pool_class kw [])
           ∧ ∀ e, snd (engine_from_url u pool_class kw []) = Raise e →
                  r = Raise e).
Proof.
  split; [apply engine_from_url_run|].
  destruct (__init__ _ _ _ _ _ _ _ _) as [log r] eqn:Hrun.
  unfold __init__ in Hrun. cbv zeta in Hrun.
  eff_inv; simpl in *; intros u pc' kw';
    (split; [intros Hin; log_cases Hin | intros Hin; log_cases Hin]);
    try log_has;
    rewrite engine_from_url_run;
    repeat match goal with
      | E : async_engine_result _ _ _ = _ |- _ => rewrite E
      | E : sync_engine_result _ _ _ = _ |- _ => rewrite E
      | E : isinstance_InvalidRequestError _ = _ |- _ => rewrite E
      end;
    simpl; rewrite !filter_app, filter_no_engine_construction by done;
    (split; [done|intros; by simplify_eq]).
Qed.
End EngineResolutionProperties.

(** ** Shutdown *)

Section StartProperties.
Context `{!DriverLayer}.

(** C9, as amended.  The part of [start] that runs at shutdown disposes of
    the bind exactly when the bind is an engine: an [Engine] by a plain call
    of [dispose()], an [AsyncEngine] by an awaited one, in both cases before
    the shutdown is logged and with a failure of the disposal leaving
    [start]; a [Connection] or [AsyncConnection] is left alone.  The bind of
    a constructed component is the bind the caller supplied, if any, and
    otherwise the engine the constructors returned: so the engine disposed
    of is the one the component holds, the caller's as much as its own. *)
Theorem shutdown_disposes_held_engine
    (url : option url_arg) (supplied : option bindable)
    (engine_args session_args : option kwargs) (workers : Z)
    (poolclass : pyval) (name : string) :
  (∀ self,
     start_after_yield self [] =
       match bind self with
       | BEngine e =>
           match Engine_dispose e with
           | Ok _ => ([EvDispose e; EvLogShutDown (resource_name self)], Ok tt)
           | Raise err => ([EvDispose e], Raise err)
           end
       | BAsyncEngine e =>
           match AsyncEngine_dispose e with
           | Ok _ =>
               ([EvAwaitDispose e; EvLogShutDown (resource_name self)], Ok tt)
           | Raise err => ([EvAwaitDispose e], Raise err)
           end
       | BConnection _ | BAsyncConnection _ =>
           ([EvLogShutDown (resource_name self)], Ok tt)
       end
     ∧ filter (λ ev, is_disposal ev = true) (fst (start_after_yield self [])) =
         match bind self with
         | BEngine e => [EvDispose e]
         | BAsyncEngine e => [EvAwaitDispose e]
         | BConnection _ | BAsyncConnection _ => []
         end)
  ∧ let '(log, r) :=
      __init__ url supplied engine_args session_args workers poolclass name [] in
    ∀ self, r = Ok self →
      match supplied with
      | Some b => bind self = b
      | None =>
          ∃ u pc kw,
            EvCreateAsyncEngine u pc kw ∈ log
            ∧ snd (engine_from_url u pc kw []) = Ok (bind self)
      end.
Proof.
  split.
  - intros self.
    unfold start_after_yield, Eff.bind, Eff.ret, dispose, host.
    destruct (bind self) as [e|e|c|c]; simpl;
      try destruct (Engine_dispose e) as [[]|err];
      try destruct (AsyncEngine_dispose e) as [[]|err]; done.
  - destruct (__init__ _ _ _ _ _ _ _ _) as [log r] eqn:Hrun.
    unfold __init__ in Hrun. cbv zeta in Hrun.
    eff_inv; simpl in *; intros self Hself; simplify_eq; try done;
      match goal with
      | E : async_engine_result ?u ?pc ?kw = _ |- _ => exists u, pc, kw
      end;
      (split; [log_has|]);
      rewrite engine_from_url_run;
      repeat match goal with
        | E : async_engine_result _ _ _ = _ |- _ => rewrite E
        | E : sync_engine_result _ _ _ = _ |- _ => rewrite E
        | E : isinstance_InvalidRequestError _ = _ |- _ => rewrite E
        end; done.
Qed.
End StartProperties.

(** ** Worked examples *)

(** C1 on a session with an open transaction whose [commit()] fails: the
    asynchronous finalizer still closes the session and removes the entry,
    and the commit's exception is what leaves it. *)
Lemma finalizer_commit_failure_example :
  let '(w, r) :=
    finalizer true None
      (fresh_session (MockSession true false true) ∅ "request") in
  calls (sw_log w) = [EvInTransaction; EvCommit; EvClose; EvDelInfo "ctx"]
  ∧ sw_state w = MockSession false true true
  ∧ sw_info w = delete "ctx" (<["ctx" := PRef "request"]> ∅)
  ∧ sw_info w !! "ctx" = None
  ∧ r = Raise OperationalError.
Proof.
  pose proof (finalizer_commit_or_rollback_then_cleanup (S := mock_session)
                true None (MockSession true false true)
                (<["ctx" := PRef "request"]> ∅)) as H.
  simpl in H. rewrite lookup_insert_eq in H.
  destruct H as (H1 & H2 & H3 & H4 & H5).
  exact (conj H1 (conj H2 (conj H3 (conj H4 H5)))).
Defined.

(** C1 as the specification words it fails on a session whose [close()]
    raises: the commit was attempted and raised, yet the ["ctx"] entry is
    still there afterwards, and it is the exception of [close()], not that
    of the commit, that leaves the finalizer. *)
Lemma finalizer_cleanup_not_guaranteed :
  let '(w, r) :=
    finalizer false None (fresh_session DeadSession ∅ "request") in
  session_commit DeadSession = (DeadSession, Raise CommitFailed)
  ∧ calls (sw_log w) = [EvInTransaction; EvCommit; EvClose]
  ∧ sw_info w !! "ctx" = Some (PRef "request")
  ∧ r = Raise CloseFailed
  ∧ r ≠ Raise CommitFailed.
Proof.
  simpl. split; [done|]. split; [done|].
  split; [apply lookup_insert_eq|]. split; [done|]. discriminate.
Qed.

(** C6 as the specification words it fails on the same session, with a
    failure passed in: the rollback and [close()] are called, [close()]
    raises, and no removal follows it. *)
Lemma removal_does_not_always_follow_close :
  let '(w, r) :=
    finalizer true (Some OperationalError)
      (fresh_session DeadSession ∅ "request") in
  calls (sw_log w) = [EvInTransaction; EvRollback; EvClose]
  ∧ (∀ k, EvDelInfo k ∉ sw_log w)
  ∧ sw_info w !! "ctx" = Some (PRef "request").
Proof.
  simpl. split; [done|]. split; [intros k; log_not_in|].
  apply lookup_insert_eq.
Qed.


(** The calls of constructing a component for [sqlite:///app.db]. *)
Lemma sqlite_run_example :
  fst (__init__ (Some (UrlStr "sqlite:///app.db")) None None None 5 PNone
         "default" []) =
    [EvMakeUrl "sqlite:///app.db"; EvGetDialect sqlite_url;
     EvCreateAsyncEngine sqlite_url PNone sqlite_engine_kw;
     EvCreateEngine sqlite_url PNone sqlite_engine_kw;
     EvGetDialect sqlite_url;
     EvApplySqliteHacks (BEngine (MkEngine 0 "sqlite" "sqlite"));
     EvSessionmaker (BEngine (MkEngine 0 "sqlite" "sqlite"))
       {[ "expire_on_commit" := PBool false; "future" := PBool true ]}].
Proof. vm_compute. reflexivity. Qed.


(** C2 on [sqlite:///app.db]: the synchronous constructor was called, so
    the asynchronous one was, and the two calls are all there is; on a
    driver the layer does not know, the failure of the asynchronous
    constructor is the failure of construction. *)
Lemma engine_fallback_example :
  EvCreateAsyncEngine sqlite_url PNone sqlite_engine_kw
    ∈ fst (__init__ (Some (UrlStr "sqlite:///app.db")) None None None 5 PNone
             "default" [])
  ∧ snd (__init__ (Some (UrlStr "mysql://localhost/app")) None None None 5 PNone
           "default" []) =
      Raise (Exc (ExcClass "sqlalchemy.exc.NoSuchModuleError" false) "mysql").
Proof.
  split.
  - pose proof (engine_resolution_async_first (Some (UrlStr "sqlite:///app.db"))
                  None None 5 PNone "default") as [_ H].
    rewrite (surjective_pairing (__init__ _ _ _ _ _ _ _ _)) in H.
    apply (H sqlite_url PNone sqlite_engine_kw).
    rewrite sqlite_run_example. set_unfold. tauto.
  - pose proof (engine_resolution_async_first
                  (Some (UrlStr "mysql://localhost/app"))
                  None None 5 PNone "default") as [_ H].
    rewrite (surjective_pairing (__init__ _ _ _ _ _ _ _ _)) in H.
    apply (H (MkURL "mysql" None) PNone ∅).
    + vm_compute. set_unfold. tauto.
    + vm_compute. reflexivity.
Defined.

(** C3 on a caller who asks for the opposite of both options. *)
Lemma session_args_forced_example :
  ∃ self,
    snd (__init__ None (Some (BAsyncEngine asyncpg_engine)) None
           (Some {[ "expire_on_commit" := PBool true; "future" := PBool false ]})
           5 PNone "default" []) = Ok self
    ∧ sm_kw (self_sessionmaker self) !! "expire_on_commit" = Some (PBool false)
    ∧ sm_kw (self_sessionmaker self) !! "future" = Some (PBool true).
Proof.
  pose proof (session_args_forced None (Some (BAsyncEngine asyncpg_engine)) None
                (Some {[ "expire_on_commit" := PBool true;
                         "future" := PBool false ]})
                5 PNone "default") as H.
  rewrite (surjective_pairing (__init__ _ _ _ _ _ _ _ _)) in H.
  destruct H as [_ H].
  eexists. split; [vm_compute; reflexivity|].
  apply H. vm_compute. reflexivity.
Defined.



(** C9, as amended, on a connection the caller supplied: shutdown logs and
    disposes of nothing. *)
Lemma supplied_connection_is_kept :
  ∃ self,
    snd (__init__ None (Some (BConnection callers_connection)) None None 5
           PNone "default" []) = Ok self
    ∧ bind self = BConnection callers_connection
    ∧ fst (start_after_yield self []) = [EvLogShutDown "default"].
Proof.
  pose proof (shutdown_disposes_held_engine None
                (Some (BConnection callers_connection)) None None 5 PNone
                "default") as [H1 H2].
  rewrite (surjective_pairing (__init__ _ _ _ _ _ _ _ _)) in H2.
  eexists. split; [vm_compute; reflexivity|].
  split; [apply H2; vm_compute; reflexivity|].
  destruct (H1 (MkComponent "default" 5 (BConnection callers_connection)
                  (BEngine callers_engine)
                  (MkSessionmaker (BConnection callers_connection)
                     {[ "expire_on_commit" := PBool false;
                        "future" := PBool true ]}))) as [H3 _].
  simpl in H3. exact (f_equal fst H3).
Defined.

(** C9 as the specification words it fails: an engine the caller
    constructed and supplied as [bind] is not the component's own, and
    shutdown disposes of it. *)
Lemma supplied_engine_is_disposed :
  ∃ self,
    snd (__init__ None (Some (BEngine callers_engine)) None None 5 PNone
           "default" []) = Ok self
    ∧ bind self = BEngine callers_engine
    ∧ fst (start_after_yield self []) =
        [EvDispose callers_engine; EvLogShutDown "default"].
Proof.
  eexists. split; [vm_compute; reflexivity|]. split; reflexivity.
Qed.

(** ** Further properties of the finalizers *)

Section FinalizerEdges.
Context {S : Type} `{!SessionOps S}.

(** A session that lost its ["ctx"] entry: the finalizer changes nothing in
    [info] and never returns; when [close()] returns, it is the [KeyError]
    of line 143/159 that leaves the finalizer, in place of whatever the
    commit or rollback raised. *)
Theorem finalizer_missing_ctx
    (async : bool) (exc : option exception) (s : S) (info : kwargs) :
  info !! "ctx" = None →
  let '(w, r) := finalizer async exc (SessWorld s info []) in
  EvClose ∈ sw_log w
  ∧ sw_info w = info
  ∧ (∃ e, r = Raise e)
  ∧ (EvDelInfo "ctx" ∈ sw_log w → r = Raise (Exc KeyError "ctx")).
Proof.
  intros Hc. unfold_finalizer.
  destruct async, exc; ask_session; rewrite ?Hc; simpl;
    (split; [log_in|]); (split; [done|]);
    (split; [by eexists|]); intros Hin; try done; log_absurd Hin.
Qed.

(** A [close()] that raises: its exception is what leaves the finalizer, in
    place of whatever the commit or rollback raised; the ["ctx"] entry is
    not removed and [info] is as it was. *)
Theorem finalizer_close_failure
    (async : bool) (exc : option exception) (s : S) (info : kwargs) :
  let '(s1, in_txn) := session_in_transaction s in
  let '(s2, r_txn) :=
    match in_txn with
    | Ok true =>
        match exc with
        | None => session_commit s1
        | Some _ => session_rollback s1
        end
    | Ok false => (s1, Ok tt)
    | Raise e => (s1, Raise e)
    end in
  let '(s3, r_close) := session_close s2 in
  ∀ e, r_close = Raise e →
    let '(w, r) := finalizer async exc (SessWorld s info []) in
    r = Raise e
    ∧ sw_state w = s3
    ∧ sw_info w = info
    ∧ (∀ k, EvDelInfo k ∉ sw_log w).
Proof.
  unfold_finalizer.
  destruct async, exc; ask_session; intros e' He; simplify_eq;
    repeat split; try done; intros k; log_not_in.
Qed.

(** The finalizers touch one entry of [info]: afterwards [info] is as it
    was, or as it was without ["ctx"]; every other entry is kept. *)
Theorem finalizer_keeps_other_info
    (async : bool) (exc : option exception) (s : S) (info : kwargs) :
  let '(w, r) := finalizer async exc (SessWorld s info []) in
  (sw_info w = info ∨ sw_info w = delete "ctx" info)
  ∧ ∀ k, k ≠ "ctx" → sw_info w !! k = info !! k.
Proof.
  unfold_finalizer.
  destruct async, exc; ask_session; destruct (info !! "ctx"); simpl;
    (split; [tauto|]); intros k Hk; by rewrite ?lookup_delete_ne.
Qed.

(** What a finalizer never does, whatever the session answers: it never
    commits when a failure was passed in and never rolls back when none
    was; it makes at most one of the two calls; it asks
    [in_transaction()] once, first, and calls [close()] once. *)
Theorem finalizer_call_counts
    (async : bool) (exc : option exception) (s : S) (info : kwargs) :
  let '(w, r) := finalizer async exc (SessWorld s info []) in
  match exc with
  | None => EvRollback ∉ sw_log w
  | Some _ => EvCommit ∉ sw_log w
  end
  ∧ head (sw_log w) = Some EvInTransaction
  ∧ length (filter (λ ev, ev = EvInTransaction) (sw_log w)) = 1
  ∧ length (filter (λ ev, ev = EvCommit ∨ ev = EvRollback) (sw_log w)) ≤ 1
  ∧ length (filter (λ ev, ev = EvClose) (sw_log w)) = 1.
Proof.
  unfold_finalizer.
  destruct async, exc; ask_session; destruct (info !! "ctx"); simpl;
    (split; [log_not_in|]);
    (split; [done|]); vm_compute; repeat split; lia.
Qed.

(** A session made by [create_session] or [create_async_session] carries
    its context under ["ctx"], and the finalizer registered with it undoes
    exactly that: once the removal is reached, [info] is what the factory
    was configured with (less a ["ctx"] of its own), and no [KeyError] comes
    from the removal. *)
Theorem session_info_round_trip
    (async : bool) (exc : option exception) (s0 : S) (base : kwargs)
    (ctx : Context) :
  let '(w0, fin) :=
    (if async then create_async_session else create_session) s0 base ctx in
  fin = finalizer async
  ∧ sw_info w0 !! "ctx" = Some (PRef ctx)
  ∧ (∀ k, k ≠ "ctx" → sw_info w0 !! k = base !! k)
  ∧ let '(w, r) := fin exc w0 in
    (EvDelInfo "ctx" ∈ sw_log w →
       sw_info w = delete "ctx" base
       ∧ (base !! "ctx" = None → sw_info w = base))
    ∧ ((∀ k, EvDelInfo k ∉ sw_log w) →
         sw_info w = <["ctx" := PRef ctx]> base ∧ ∃ e, r = Raise e).
Proof.
  destruct async; simpl;
    (split; [done|]);
    (split; [apply lookup_insert_eq|]);
    (split; [intros k Hk; by rewrite lookup_insert_ne|]);
    unfold fresh_session; unfold_finalizer;
    destruct exc; ask_session; rewrite ?lookup_insert_eq; simpl;
    (split;
     [intros Hin; rewrite ?delete_insert_eq;
      first [split; [done|intros Hb; by apply delete_id]
            | log_absurd Hin]
     |intros Hno;
      first [split; [done|by eexists]
            | exfalso; apply (Hno "ctx"); log_in]]).
Qed.
End FinalizerEdges.

(** ** Further properties of construction *)

Section ConstructionInvariants.
Context `{!DriverLayer}.

(** What every component that [__init__] returns satisfies: it keeps the
    name and the worker count it was given; its session factory is bound to
    its bind; a supplied bind is the bind and the engine is that bind's
    [.engine] (the synchronous engine, for a supplied [AsyncEngine]);
    without a supplied bind the engine is the bind and is an [Engine] or an
    [AsyncEngine]; and the construction of the session factory was the last
    call made, and the only one of its kind. *)
Theorem init_result_invariants
    (url : option url_arg) (supplied : option bindable)
    (engine_args session_args : option kwargs) (workers : Z)
    (poolclass : pyval) (name : string) :
  let '(log, r) :=
    __init__ url supplied engine_args session_args workers poolclass name [] in
  ∀ self, r = Ok self →
    resource_name self = name
    ∧ commit_executor_workers self = workers
    ∧ sm_bind (self_sessionmaker self) = bind self
    ∧ match supplied with
      | Some b => bind self = b ∧ engine self = bind_engine b
      | None =>
          engine self = bind self
          ∧ isinstance_Engine (bind self) || isinstance_AsyncEngine (bind self)
            = true
      end
    ∧ ∃ calls,
        log = calls ++ [EvSessionmaker (bind self) (sm_kw (self_sessionmaker self))]
        ∧ ∀ b kw, EvSessionmaker b kw ∉ calls.
Proof.
  destruct (__init__ _ _ _ _ _ _ _ _) as [log r] eqn:Hrun.
  unfold __init__ in Hrun. cbv zeta in Hrun.
  eff_inv; simpl in *; intros self Hself; simplify_eq;
    try match goal with
      | Hsm : sessionmaker_result _ _ = Ok _ |- _ =>
          apply sessionmaker_result_ok in Hsm as ->; simpl
      end.
  all: repeat (split; [done|]).
  all: first [ exists []; split; [done|]; intros ? ?; apply not_elem_of_nil
             | eexists; split; [reflexivity|];
               intros b' kw' Hin; log_cases Hin ].
Qed.
End ConstructionInvariants.

Section ConstructionEdges.
Context `{!DriverLayer}.

(** A keyword given twice: the call raises before the constructor runs. *)
Lemma async_engine_result_duplicate (u : URL) (pc : pyval) (kw : kwargs) (v : pyval) :
  kw !! "poolclass" = Some v →
  ∃ msg, async_engine_result u pc kw = Raise (Exc TypeError msg).
Proof.
  intros Hk. unfold async_engine_result, with_keyword. rewrite Hk. by eexists.
Qed.

(** A ["poolclass"] entry in [engine_args] collides with the keyword of
    lines 116-118: construction from a URL never succeeds, the asynchronous
    constructor call raises [TypeError] when it is reached, and since that is
    no [InvalidRequestError] there is no fallback to the synchronous
    constructor and no session factory. *)
Theorem poolclass_in_engine_args
    (url : option url_arg) (engine_args session_args : option kwargs)
    (workers : Z) (poolclass : pyval) (name : string) :
  is_Some (or_empty engine_args !! "poolclass") →
  let '(log, r) :=
    __init__ url None engine_args session_args workers poolclass name [] in
  (∃ e, r = Raise e)
  ∧ (∀ u pc kw, EvCreateEngine u pc kw ∉ log)
  ∧ (∀ b kw, EvSessionmaker b kw ∉ log)
  ∧ (∀ u pc kw, EvCreateAsyncEngine u pc kw ∈ log →
       ∃ msg, r = Raise (Exc TypeError msg)).
Proof.
  intros [v Hpc].
  destruct (__init__ _ _ _ _ _ _ _ _) as [log r] eqn:Hrun.
  unfold __init__ in Hrun. cbv zeta in Hrun.
  eff_inv; simpl in *;
    repeat match goal with
      | Hd : ∃ d : kwargs, _ |- _ => destruct Hd as (? & ? & ? & ? & ?)
      | E : async_engine_result ?u ?pc ?kw = _ |- _ =>
          let Hk := fresh "Hk" in
          assert (kw !! "poolclass" = Some v) as Hk
            by (first [exact Hpc
                      | match goal with
                        | Hx : ∀ k, _ → kw !! k = _ |- _ =>
                            rewrite Hx by done; exact Hpc
                        end]);
          destruct (async_engine_result_duplicate u pc kw v Hk) as [msg Hmsg];
          rewrite Hmsg in E; simplify_eq
      end;
    try discriminate;
    (split; [by eexists|]);
    (split; [intros u' pc' kw' Hin; log_cases Hin|]);
    (split; [intros b' kw' Hin; log_cases Hin|]);
    intros u' pc' kw' Hin; log_cases Hin; by eexists.
Qed.

(** The keyword arguments of the session factory: every key but the three
    the component sets is the caller's. *)
Lemma session_kwargs_other (session_args : kwargs) (async : bool) (k : string) :
  k ≠ "expire_on_commit" → k ≠ "future" → k ≠ "class_" →
  (if async
   then fst (setdefault "class_" AsyncSession
               (<["future" := PBool true]>
                  (<["expire_on_commit" := PBool false]> session_args)))
   else <["future" := PBool true]>
          (<["expire_on_commit" := PBool false]> session_args)) !! k
  = session_args !! k.
Proof.
  intros H1 H2 H3. destruct async; rewrite ?setdefault_lookup;
    repeat case_decide; try done; by rewrite !lookup_insert_ne.
Qed.

Lemma sessionmaker_result_duplicate (b : bindable) (kw : kwargs) (v : pyval) :
  kw !! "bind" = Some v →
  ∃ msg, sessionmaker_result b kw = Raise (Exc TypeError msg).
Proof.
  intros Hk. unfold sessionmaker_result, with_keyword. rewrite Hk. by eexists.
Qed.

(** A ["bind"] entry in [session_args] collides with the keyword of line
    130: construction never succeeds, with or without a supplied bind, and
    the call of [sessionmaker] raises [TypeError] when it is reached. *)
Theorem bind_in_session_args
    (url : option url_arg) (supplied : option bindable)
    (engine_args session_args : option kwargs)
    (workers : Z) (poolclass : pyval) (name : string) :
  is_Some (or_empty session_args !! "bind") →
  let '(log, r) :=
    __init__ url supplied engine_args session_args workers poolclass name [] in
  (∃ e, r = Raise e)
  ∧ (∀ b kw, EvSessionmaker b kw ∈ log → ∃ msg, r = Raise (Exc TypeError msg)).
Proof.
  intros [v Hb].
  pose proof (session_kwargs_other (or_empty session_args) true "bind") as Ht.
  pose proof (session_kwargs_other (or_empty session_args) false "bind") as Hf.
  simpl in Ht, Hf. rewrite Hb in Ht, Hf.
  specialize (Ht ltac:(done) ltac:(done) ltac:(done)).
  specialize (Hf ltac:(done) ltac:(done) ltac:(done)).
  destruct (__init__ _ _ _ _ _ _ _ _) as [log r] eqn:Hrun.
  unfold __init__ in Hrun. cbv zeta in Hrun.
  eff_inv; simpl in *;
    repeat match goal with
      | E : sessionmaker_result ?b ?kw = _ |- _ =>
          let Hk := fresh "Hk" in
          assert (kw !! "bind" = Some v) as Hk
            by (first [exact Ht | exact Hf
                      | destruct (isinstance_AsyncEngine (bind_engine b));
                        [exact Ht | exact Hf]]);
          destruct (sessionmaker_result_duplicate b kw v Hk) as [msg Hmsg];
          rewrite Hmsg in E; simplify_eq
      end;
    (split; [by eexists|]);
    intros b' kw' Hin; log_cases Hin; by eexists.
Qed.
End ConstructionEdges.

Section ConstructionArguments.
Context `{!DriverLayer}.


End ConstructionArguments.

Section ConstructionLifecycle.
Context `{!DriverLayer}.

(** [apply_sqlite_hacks] is called only without a supplied bind, only for
    a URL of the [sqlite] dialect, and only on the engine the constructors
    just returned; and a component constructed from a [sqlite] URL has had
    it applied to its engine, successfully. *)
Theorem sqlite_hacks_on_constructed_engine
    (url : option url_arg) (supplied : option bindable)
    (engine_args session_args : option kwargs)
    (workers : Z) (poolclass : pyval) (name : string) :
  let '(log, r) :=
    __init__ url supplied engine_args session_args workers poolclass name [] in
  (∀ e, EvApplySqliteHacks e ∈ log →
     supplied = None
     ∧ ∃ u pc kw,
         EvCreateAsyncEngine u pc kw ∈ log
         ∧ get_dialect_name u = Ok "sqlite"
         ∧ snd (engine_from_url u pc kw []) = Ok e)
  ∧ (∀ self u pc kw,
       r = Ok self →
       EvCreateAsyncEngine u pc kw ∈ log →
       get_dialect_name u = Ok "sqlite" →
       EvApplySqliteHacks (engine self) ∈ log
       ∧ apply_sqlite_hacks (engine self) = Ok tt).
Proof.
  destruct (__init__ _ _ _ _ _ _ _ _) as [log r] eqn:Hrun.
  unfold __init__ in Hrun. cbv zeta in Hrun.
  destruct url as [[s|u0|d]|]; unfold url_from_arg in Hrun;
    eff_inv; simpl in *;
    repeat match goal with
      | Hs : (_ =? "sqlite")%string = true |- _ =>
          apply String.eqb_eq in Hs; subst
      | Hs : (_ =? "sqlite")%string = false |- _ =>
          apply String.eqb_neq in Hs
      | x : unit |- _ => destruct x
      end;
    (split;
     [intros e' Hin; log_cases Hin; (split; [done|]);
      match goal with
      | E : async_engine_result ?u ?pc ?kw = _ |- _ => exists u, pc, kw
      end;
      (split; [log_has|]); (split; [done|]);
      rewrite engine_from_url_run;
      repeat match goal with
        | E : async_engine_result _ _ _ = _ |- _ => rewrite E
        | E : sync_engine_result _ _ _ = _ |- _ => rewrite E
        | E : isinstance_InvalidRequestError _ = _ |- _ => rewrite E
        end; done
     |intros self u' pc' kw' Hself Hin Hd; simplify_eq; log_cases Hin;
      first [congruence | split; [log_has|done]]]).
Qed.

(** Construction from a URL followed by shutdown: the bind of the
    component is the engine the constructors returned, and the part of
    [start] after the [yield] begins by disposing of exactly that engine,
    logging the shutdown only if the disposal returns. *)
Theorem constructed_engine_is_disposed
    (url : option url_arg) (engine_args session_args : option kwargs)
    (workers : Z) (poolclass : pyval) (name : string) :
  let '(log, r) :=
    __init__ url None engine_args session_args workers poolclass name [] in
  ∀ self, r = Ok self →
    (∃ u pc kw,
       EvCreateAsyncEngine u pc kw ∈ log
       ∧ snd (engine_from_url u pc kw []) = Ok (bind self))
    ∧ match bind self with
      | BEngine e =>
          fst (start_after_yield self []) =
            EvDispose e
            :: match Engine_dispose e with
               | Ok _ => [EvLogShutDown name]
               | Raise _ => []
               end
      | BAsyncEngine e =>
          fst (start_after_yield self []) =
            EvAwaitDispose e
            :: match AsyncEngine_dispose e with
               | Ok _ => [EvLogShutDown name]
               | Raise _ => []
               end
      | BConnection _ | BAsyncConnection _ => False
      end.
Proof.
  destruct (__init__ _ _ _ _ _ _ _ _) as [log r] eqn:Hrun.
  unfold __init__ in Hrun. cbv zeta in Hrun.
  eff_inv; simpl in *; intros self Hself; simplify_eq;
    (split;
     [match goal with
      | E : async_engine_result ?u ?pc ?kw = _ |- _ => exists u, pc, kw
      end;
      (split; [log_has|]);
      rewrite engine_from_url_run;
      repeat match goal with
        | E : async_engine_result _ _ _ = _ |- _ => rewrite E
        | E : sync_engine_result _ _ _ = _ |- _ => rewrite E
        | E : isinstance_InvalidRequestError _ = _ |- _ => rewrite E
        end; done
     |unfold start_after_yield, dispose, host, Eff.bind; simpl;
      first [by destruct (Engine_dispose _) as [[]|]
            | by destruct (AsyncEngine_dispose _) as [[]|]]]).
Qed.
End ConstructionLifecycle.

(** ** Further properties of [start] *)

(** The outcomes of the host's calls, one by one as a run meets them. *)
Ltac ask_host :=
  repeat match goal with
    | |- context [match host_outcome ?ev with _ => _ end] =>
        let E := fresh "E" in
        destruct (host_outcome ev) as [[]|] eqn:E; simpl
    end.

Section StartRegistrations.
Context `{!HostLayer}.

(** [start] up to the [yield]: the first registration is that of the
    component's engine under the resource name; a session factory is
    registered only after the [sessionmaker], under the same name, and it is
    the asynchronous one exactly when the engine is an [AsyncEngine]; a run
    that returns has registered it, has read the bind's dialect and ends
    with the log line; a run that raises ends with the host call that
    raised, or has made every registration and failed to read the bind's
    dialect for the log line, which is then not written. *)
Theorem start_registers_resources (self : SQLAlchemyComponent) :
  let '(log, r) := start_until_yield self [] in
  head log = Some (EvAddEngine (engine self) (resource_name self))
  ∧ (∀ async n,
       EvAddResourceFactory async n ∈ log →
       async = isinstance_AsyncEngine (engine self)
       ∧ n = resource_name self
       ∧ EvAddSessionmaker (self_sessionmaker self) (resource_name self) ∈ log)
  ∧ (r = Ok tt →
       EvAddResourceFactory (isinstance_AsyncEngine (engine self))
         (resource_name self) ∈ log
       ∧ ∃ dialect driver,
           bind_dialect (bind self) = Ok (dialect, driver)
           ∧ last log =
               Some (EvLogConfigured (resource_name self) dialect driver))
  ∧ (∀ e, r = Raise e →
       (∃ ev, last log = Some ev ∧ host_outcome ev = Raise e)
       ∨ (bind_dialect (bind self) = Raise e
          ∧ EvAddResourceFactory (isinstance_AsyncEngine (engine self))
              (resource_name self) ∈ log
          ∧ ∀ n dialect driver, EvLogConfigured n dialect driver ∉ log)).
Proof.
  unfold start_until_yield, host_call, host, read_dialect, Eff.bind.
  destruct (isinstance_AsyncEngine (engine self)) eqn:Ha; simpl; ask_host;
    try (destruct (bind_dialect (bind self)) as [[dialect driver]|err] eqn:Ed;
         simpl);
    (split; [done|]);
    (split; [intros async n Hin; log_cases Hin; (split; [done|]);
             (split; [done|]); log_in|]);
    (split; [intros Hr; first [discriminate Hr
                              | split; [log_in|by do 2 eexists]]|]);
    intros e' Hr; simplify_eq;
    first [ left; eexists; (split; [done|]); done
          | right; (split; [done|]); (split; [log_in|]);
            intros n' d' v'; log_not_in ].
Qed.

(** The executor pool: it is created only for an engine that is not
    asynchronous and only with [commit_executor_workers] workers, which are
    thus ignored for an asynchronous engine; its shutdown is registered only
    once it exists; and [create_session], whose finalizer runs in the pool,
    is registered only after the pool exists and its shutdown is
    registered. *)
Theorem start_executor_for_sync_engine_only (self : SQLAlchemyComponent) :
  let '(log, r) := start_until_yield self [] in
  (∀ n, EvThreadPoolExecutor n ∈ log →
      n = commit_executor_workers self
      ∧ isinstance_AsyncEngine (engine self) = false)
  ∧ (EvAddExecutorShutdown ∈ log →
       EvThreadPoolExecutor (commit_executor_workers self) ∈ log
       ∧ host_outcome (EvThreadPoolExecutor (commit_executor_workers self)) = Ok tt)
  ∧ (EvAddResourceFactory false (resource_name self) ∈ log →
       EvAddExecutorShutdown ∈ log
       ∧ host_outcome EvAddExecutorShutdown = Ok tt
       ∧ all_before (EvThreadPoolExecutor (commit_executor_workers self))
           (EvAddResourceFactory false (resource_name self)) log).
Proof.
  unfold start_until_yield, host_call, host, read_dialect, Eff.bind.
  destruct (isinstance_AsyncEngine (engine self)) eqn:Ha; simpl; ask_host;
    try (destruct (bind_dialect (bind self)) as [[dialect driver]|err]; simpl);
    (split; [intros n Hin; log_cases Hin; done|]);
    (split; [intros Hin; log_cases Hin; (split; [log_in|done])|]);
    intros Hin; log_cases Hin; (split; [log_in|]); (split; [done|]);
    unfold all_before; intros i j Hi Hj; walk_log; lia.
Qed.
End StartRegistrations.

(** ** Further worked examples *)

(** A session whose [info] lost its ["ctx"] entry and whose commit fails:
    the finalizer closes it and raises the [KeyError]. *)
Lemma finalizer_missing_ctx_example :
  (∅ : kwargs) !! "ctx" = None
  ∧ let '(w, r) :=
      finalizer false None (SessWorld (MockSession true false true) ∅ []) in
    EvClose ∈ sw_log w
    ∧ sw_info w = ∅
    ∧ r = Raise (Exc KeyError "ctx").
Proof.
  split; [apply lookup_empty|].
  pose proof (finalizer_missing_ctx (S := mock_session) false None
                (MockSession true false true) ∅ (lookup_empty _)) as H.
  simpl in H. destruct H as (H1 & H2 & _ & H4).
  refine (conj H1 (conj H2 (H4 _))). log_in.
Defined.

(** A dead session: [commit()] raises, then [close()] raises, and it is the
    second exception that leaves the finalizer; the entry stays. *)
Lemma finalizer_close_failure_example :
  let '(w, r) :=
    finalizer true None (fresh_session DeadSession ∅ "request") in
  r = Raise CloseFailed
  ∧ sw_info w = <["ctx" := PRef "request"]> ∅
  ∧ ∀ k, EvDelInfo k ∉ sw_log w.
Proof.
  pose proof (finalizer_close_failure (S := dead_session) true None DeadSession
                (<["ctx" := PRef "request"]> ∅)) as H.
  simpl in H. destruct (H CloseFailed eq_refl) as (H1 & _ & H3 & H4).
  exact (conj H1 (conj H3 H4)).
Defined.

(** [engine_args={"poolclass": NullPool}] on a [sqlite] URL. *)
Lemma poolclass_in_engine_args_example :
  is_Some (or_empty (Some {[ "poolclass" := PRef "sqlalchemy.pool.NullPool" ]})
             !! "poolclass")
  ∧ ∃ msg,
      snd (__init__ (Some (UrlStr "sqlite:///app.db")) None
             (Some {[ "poolclass" := PRef "sqlalchemy.pool.NullPool" ]}) None
             5 PNone "default" []) = Raise (Exc TypeError msg).
Proof.
  assert (is_Some (or_empty (Some {[ "poolclass" :=
                                       PRef "sqlalchemy.pool.NullPool" ]})
                     !! "poolclass")) as Hpc by (vm_compute; by eexists).
  split; [exact Hpc|].
  pose proof (poolclass_in_engine_args (Some (UrlStr "sqlite:///app.db"))
                (Some {[ "poolclass" := PRef "sqlalchemy.pool.NullPool" ]}) None
                5 PNone "default" Hpc) as H.
  rewrite (surjective_pairing (__init__ _ _ _ _ _ _ _ _)) in H.
  destruct H as (_ & _ & _ & H).
  eapply H. vm_compute. log_in.
Defined.

(** [session_args={"bind": ...}] with a supplied engine. *)
Lemma bind_in_session_args_example :
  is_Some (or_empty (Some {[ "bind" := PRef "other_engine" ]}) !! "bind")
  ∧ ∃ msg,
      snd (__init__ None (Some (BAsyncEngine asyncpg_engine)) None
             (Some {[ "bind" := PRef "other_engine" ]})
             5 PNone "default" []) = Raise (Exc TypeError msg).
Proof.
  assert (is_Some (or_empty (Some {[ "bind" := PRef "other_engine" ]})
                     !! "bind")) as Hb by (vm_compute; by eexists).
  split; [exact Hb|].
  pose proof (bind_in_session_args None (Some (BAsyncEngine asyncpg_engine)) None
                (Some {[ "bind" := PRef "other_engine" ]})
                5 PNone "default" Hb) as H.
  rewrite (surjective_pairing (__init__ _ _ _ _ _ _ _ _)) in H.
  destruct H as (_ & H).
  eapply H. vm_compute. log_in.
Defined.

(** The component constructed for [sqlite:///app.db]. *)
Lemma sqlite_component_example :
  ∃ self,
    snd (__init__ (Some (UrlStr "sqlite:///app.db")) None None None 5 PNone
           "default" []) = Ok self
    ∧ bind self = BEngine (MkEngine 0 "sqlite" "sqlite")
    ∧ engine self = bind self
    ∧ sm_bind (self_sessionmaker self) = bind self.
Proof.
  pose proof (init_result_invariants (Some (UrlStr "sqlite:///app.db")) None
                None None 5 PNone "default") as H.
  rewrite (surjective_pairing (__init__ _ _ _ _ _ _ _ _)) in H.
  eexists. split; [vm_compute; reflexivity|].
  edestruct H as (_ & _ & H4 & (H5 & _) & _); [vm_compute; reflexivity|].
  split; [reflexivity|]. exact (conj H5 H4).
Defined.


(** The [sqlite] accommodation of the engine constructed for
    [sqlite:///app.db]. *)
Lemma sqlite_hacks_example :
  EvApplySqliteHacks (BEngine (MkEngine 0 "sqlite" "sqlite"))
    ∈ fst (__init__ (Some (UrlStr "sqlite:///app.db")) None None None 5 PNone
             "default" []).
Proof.
  pose proof (sqlite_hacks_on_constructed_engine
                (Some (UrlStr "sqlite:///app.db")) None None None 5 PNone
                "default") as H.
  rewrite (surjective_pairing (__init__ _ _ _ _ _ _ _ _)) in H.
  destruct H as [_ H].
  edestruct (H (MkComponent "default" 5 (BEngine (MkEngine 0 "sqlite" "sqlite"))
                  (BEngine (MkEngine 0 "sqlite" "sqlite"))
                  (MkSessionmaker (BEngine (MkEngine 0 "sqlite" "sqlite"))
                     {[ "expire_on_commit" := PBool false;
                        "future" := PBool true ]}))
               sqlite_url PNone sqlite_engine_kw) as [Hin _].
  - vm_compute. reflexivity.
  - rewrite sqlite_run_example. log_in.
  - reflexivity.
  - exact Hin.
Defined.

(** Shutdown of the component constructed for [sqlite:///app.db]. *)
Lemma sqlite_shutdown_example :
  ∃ self,
    snd (__init__ (Some (UrlStr "sqlite:///app.db")) None None None 5 PNone
           "default" []) = Ok self
    ∧ fst (start_after_yield self []) =
        [EvDispose (MkEngine 0 "sqlite" "sqlite"); EvLogShutDown "default"].
Proof.
  pose proof (constructed_engine_is_disposed (Some (UrlStr "sqlite:///app.db"))
                None None 5 PNone "default") as H.
  rewrite (surjective_pairing (__init__ _ _ _ _ _ _ _ _)) in H.
  eexists. split; [vm_compute; reflexivity|].
  edestruct H as [_ H2]; [vm_compute; reflexivity|]. exact H2.
Defined.

(** [start] for a synchronous engine on a host that accepts everything. *)
Lemma start_sync_example :
  let self :=
    MkComponent "default" 5 (BEngine (MkEngine 0 "sqlite" "sqlite"))
      (BEngine (MkEngine 0 "sqlite" "sqlite"))
      (MkSessionmaker (BEngine (MkEngine 0 "sqlite" "sqlite")) ∅) in
  snd (start_until_yield self []) = Ok tt
  ∧ EvAddResourceFactory false "default" ∈ fst (start_until_yield self [])
  ∧ last (fst (start_until_yield self [])) =
      Some (EvLogConfigured "default" "sqlite" "sqlite").
Proof.
  intros self.
  pose proof (start_registers_resources self) as H.
  rewrite (surjective_pairing (start_until_yield _ _)) in H.
  destruct H as (_ & _ & H & _). destruct (H eq_refl) as [Hin _].
  split; [reflexivity|]. split; [exact Hin|]. reflexivity.
Defined.

(** The executor of the same run: [create_session] is registered, so the
    pool's shutdown is, and the construction of the pool returned. *)
Lemma start_executor_example :
  let self :=
    MkComponent "default" 5 (BEngine (MkEngine 0 "sqlite" "sqlite"))
      (BEngine (MkEngine 0 "sqlite" "sqlite"))
      (MkSessionmaker (BEngine (MkEngine 0 "sqlite" "sqlite")) ∅) in
  EvAddExecutorShutdown ∈ fst (start_until_yield self [])
  ∧ host_outcome (EvThreadPoolExecutor 5) = Ok tt.
Proof.
  intros self.
  pose proof (start_executor_for_sync_engine_only self) as H.
  rewrite (surjective_pairing (start_until_yield _ _)) in H.
  destruct H as (_ & _ & H).
  assert (EvAddResourceFactory false "default" ∈ fst (start_until_yield self []))
    as Hin by (vm_compute; log_in).
  destruct (H Hin) as (H1 & _ & _). split; [exact H1|reflexivity].
Defined.
